(** * streamlit_app.py: the client-side session state machine

    A shallow embedding of [streamlit_app.py]: the five gateway helpers
    ([register_user_api] ... [get_protected_data_api]), the four
    [st.session_state] variables and the script body that Streamlit runs
    top to bottom once per user interaction.

    Python values are JSON values ([None] is [JNull]); a script run is a
    computation in a small monad that reads the backend, threads the session
    state, logs the [st.*] output calls and the HTTP requests it issues, and
    may stop early, either through [st.rerun()] or through an uncaught
    exception. *)

From Stdlib Require Import String List Bool ZArith.
Import ListNotations.
Open Scope string_scope.

(** ** Python values *)

(** What [response.json()] returns, and so what ends up in
    [st.session_state].  Numbers are an integer or a decimal float written
    as mantissa and exponent. *)
#[local] Set Warnings "-register-all".
Inductive json : Type :=
| JNull
| JBool (b : bool)
| JInt (z : Z)
| JFloat (m e : Z)
| JStr (s : string)
| JArr (l : list json)
| JObj (kvs : list (string * json)).

Definition pyval := json.

Definition str_nonempty (s : string) : bool :=
  match s with EmptyString => false | String _ _ => true end.

(** Python truthiness, the test behind [if user_info:], [if token_data:],
    [if st.session_state.generated_api_key:] and [not input_username]. *)
Definition truthy (v : pyval) : bool :=
  match v with
  | JNull => false
  | JBool b => b
  | JInt z => negb (Z.eqb z 0)
  | JFloat m _ => negb (Z.eqb m 0)
  | JStr s => str_nonempty s
  | JArr l => match l with [] => false | _ :: _ => true end
  | JObj kvs => match kvs with [] => false | _ :: _ => true end
  end.

(** A JSON object read into a dict: of two members with one name the later
    one wins. *)
Fixpoint dict_get (k : string) (kvs : list (string * json)) : option json :=
  match kvs with
  | [] => None
  | (k', v) :: rest =>
      match dict_get k rest with
      | Some v' => Some v'
      | None => if String.eqb k k' then Some v else None
      end
  end.

Inductive pyexn : Type :=
| KeyError (k : string)
| TypeError.

(** [v[k]] with a string key: a dict answers or raises [KeyError]; any other
    JSON value raises [TypeError]. *)
Definition subscript (v : pyval) (k : string) : pyexn + pyval :=
  match v with
  | JObj kvs =>
      match dict_get k kvs with
      | Some x => inr x
      | None => inl (KeyError k)
      end
  | _ => inl TypeError
  end.

(** ** The backend *)

(** The five requests of the helpers, with what each one sends. *)
Inductive request : Type :=
| PostRegister (username password : string)   (* POST /register, json *)
| PostToken (username password : string)      (* POST /token, form data *)
| GetUsersMe (token : pyval)                  (* GET /users/me, Bearer token *)
| PostGenerateApiKey (token : pyval)          (* POST /users/me/generate-api-key *)
| GetApiKeyProtected (api_key : pyval).       (* GET /api-key-protected, X-API-Key *)

(** How the body of a helper's [try] ends: [response.json()] returned, or
    the request, [raise_for_status()] or [json()] raised.  The string is
    [str(e)], the description of the failure. *)
Inductive http_outcome : Type :=
| Returned (body : json)
| RaisedRequestException (e : string)
| RaisedException (e : string).

Definition backend := request -> http_outcome.

(** ** Session state and output *)

Record session : Type := mkSession {
  logged_in : bool;
  username : pyval;
  access_token : pyval;
  generated_api_key : pyval
}.

(** Lines 83-90: a variable absent from [st.session_state] gets its
    default; in a fresh process all four are absent, afterwards none is. *)
Definition initial_session : session :=
  mkSession false JNull JNull JNull.

Definition init_session_state (stored : option session) : session :=
  match stored with
  | None => initial_session
  | Some s => s
  end.

(** An f-string: literal text and formatted values, in order. *)
Inductive fpart : Type :=
| Lit (s : string)
| Fmt (v : pyval).

Definition fstring := list fpart.

(** The output calls of the script that carry a message or a value. *)
Inductive ui : Type :=
| st_success (m : fstring)
| st_error (m : fstring)
| st_warning (m : fstring)
| st_info (m : fstring)
| st_write (m : fstring)
| st_code (v : pyval)
| st_json (v : pyval)
| st_html_copy (v : pyval).

(** ** The script monad *)

Record world : Type := mkWorld {
  sess : session;
  ui_log : list ui;
  net_log : list request
}.

Inductive halt : Type :=
| Rerun
| Uncaught (e : pyexn).

Inductive res (A : Type) : Type :=
| Ret (a : A) (w : world)
| Halt (h : halt) (w : world).
Arguments Ret {A} a w.
Arguments Halt {A} h w.

Definition M (A : Type) : Type := backend -> world -> res A.

Definition ret {A} (a : A) : M A := fun _ w => Ret a w.

Definition bind {A B} (m : M A) (k : A -> M B) : M B :=
  fun be w =>
    match m be w with
    | Ret a w' => k a be w'
    | Halt h w' => Halt h w'
    end.

Declare Scope script_scope.
Delimit Scope script_scope with script.
Notation "x <- m ;; k" := (bind m (fun x => k))
  (at level 61, m at next level, right associativity) : script_scope.
Notation "m ;; k" := (bind m (fun _ => k))
  (at level 61, right associativity) : script_scope.
Open Scope script_scope.

Definition read {A} (f : session -> A) : M A :=
  fun _ w => Ret (f (sess w)) w.

Definition modify (f : session -> session) : M unit :=
  fun _ w => Ret tt (mkWorld (f (sess w)) (ui_log w) (net_log w)).

Definition emit (u : ui) : M unit :=
  fun _ w => Ret tt (mkWorld (sess w) (ui_log w ++ [u]) (net_log w)).

Definition http (r : request) : M http_outcome :=
  fun be w => Ret (be r) (mkWorld (sess w) (ui_log w) (net_log w ++ [r])).

Definition st_rerun {A} : M A := fun _ w => Halt Rerun w.

Definition getitem (v : pyval) (k : string) : M pyval :=
  fun _ w =>
    match subscript v k with
    | inr x => Ret x w
    | inl e => Halt (Uncaught e) w
    end.

Definition when (b : bool) (m : M unit) : M unit :=
  if b then m else ret tt.

Arguments bind {A B} m k _ _ /.
Arguments ret {A} a _ _ /.
Arguments read {A} f _ _ /.
Arguments modify f _ _ /.
Arguments emit u _ _ /.
Arguments http r _ _ /.
Arguments st_rerun {A} _ _ /.
Arguments getitem v k _ _ /.
Arguments when b m /.
#[local] Arguments String.append : simpl never.

Definition set_logged_in (b : bool) : M unit :=
  modify (fun s => mkSession b (username s) (access_token s) (generated_api_key s)).
Definition set_username (v : pyval) : M unit :=
  modify (fun s => mkSession (logged_in s) v (access_token s) (generated_api_key s)).
Definition set_access_token (v : pyval) : M unit :=
  modify (fun s => mkSession (logged_in s) (username s) v (generated_api_key s)).
Definition set_generated_api_key (v : pyval) : M unit :=
  modify (fun s => mkSession (logged_in s) (username s) (access_token s) v).

(** ** Helper functions for API calls *)

(** Each helper returns the pair [(data, error)]: the payload and [None], or
    [None] and a message.  The messages are the f-strings of the source as
    they are written: only some of them interpolate [e]. *)

Definition register_user_api (u p : string) : M (pyval * pyval) :=
  o <- http (PostRegister u p) ;;
  ret match o with
      | Returned j => (j, JNull)
      | RaisedRequestException e =>
          (JNull, JStr ("Error connecting to backend or invalid response: " ++ e))
      | RaisedException e =>
          (JNull, JStr ("An unexpected error occurred: " ++ e))
      end.

Definition login_user_api (u p : string) : M (pyval * pyval) :=
  o <- http (PostToken u p) ;;
  ret match o with
      | Returned j => (j, JNull)
      | RaisedRequestException e =>
          (JNull, JStr ("Error connecting to backend or invalid response: " ++ e))
      | RaisedException _ =>
          (JNull, JStr "An unexpected error occurred: e")
      end.

Definition get_current_user_api (token : pyval) : M (pyval * pyval) :=
  o <- http (GetUsersMe token) ;;
  ret match o with
      | Returned j => (j, JNull)
      | RaisedRequestException _ =>
          (JNull, JStr "Error connecting to backend or invalid response: e")
      | RaisedException _ =>
          (JNull, JStr "An unexpected error occurred: e")
      end.

Definition generate_api_key_api (token : pyval) : M (pyval * pyval) :=
  o <- http (PostGenerateApiKey token) ;;
  ret match o with
      | Returned j => (j, JNull)
      | RaisedRequestException _ =>
          (JNull, JStr "Error connecting to backend or invalid response: e")
      | RaisedException _ =>
          (JNull, JStr "An unexpected error occurred: e")
      end.

Definition get_protected_data_api (api_key : pyval) : M (pyval * pyval) :=
  o <- http (GetApiKeyProtected api_key) ;;
  ret match o with
      | Returned j => (j, JNull)
      | RaisedRequestException _ =>
          (JNull, JStr "Error connecting to backend or invalid response: e")
      | RaisedException _ =>
          (JNull, JStr "An unexpected error occurred: e")
      end.

(** ** The script *)

Inductive choice : Type := Login | Register.

(** A script run is triggered by one interaction: a button of the page that
    was clicked, the form submitted with the radio choice and the two text
    inputs, or none (the run that follows [st.rerun()]).  A widget's call
    returns [True] in the run its click triggered. *)
Inductive event : Type :=
| NoEvent
| ClickRefreshProfile
| ClickCopyApiKey
| ClickGenerateApiKey
| ClickTestApiKey
| ClickLogout
| Submit (c : choice) (input_username input_password : string).

Definition refresh_profile_jwt (ev : event) : bool :=
  match ev with ClickRefreshProfile => true | _ => false end.
Definition copy_api_key (ev : event) : bool :=
  match ev with ClickCopyApiKey => true | _ => false end.
Definition generate_api_key (ev : event) : bool :=
  match ev with ClickGenerateApiKey => true | _ => false end.
Definition test_api_key_button (ev : event) : bool :=
  match ev with ClickTestApiKey => true | _ => false end.
Definition logout_button (ev : event) : bool :=
  match ev with ClickLogout => true | _ => false end.

(** Lines 98-107. *)
Definition on_refresh_profile : M unit :=
  tok <- read access_token ;;
  r <- get_current_user_api tok ;;
  let '(user_info, error) := r in
  if truthy user_info then
    name <- getitem user_info "username" ;;
    emit (st_write [Lit "Username: "; Fmt name])
  else
    emit (st_error [Lit "Failed to fetch profile: "; Fmt error;
                    Lit ". Your session might have expired. Please log in again."]) ;;
    set_logged_in false ;;
    set_username JNull ;;
    set_access_token JNull ;;
    st_rerun.

(** Lines 111-155. *)
Definition show_api_key (ev : event) : M unit :=
  key <- read generated_api_key ;;
  if truthy key then
    emit (st_info [Lit "Your API Key (keep it secret and do not share!):"]) ;;
    key' <- read generated_api_key ;;
    emit (st_code key') ;;
    when (copy_api_key ev)
      (key'' <- read generated_api_key ;;
       emit (st_html_copy key'') ;;
       emit (st_success [Lit "API Key copied to clipboard!"]))
  else
    emit (st_warning
            [Lit "No API Key generated yet for this session. Click 'Generate' below."]).

(** Lines 157-165. *)
Definition on_generate_api_key : M unit :=
  emit (st_info
          [Lit "Generating a new API Key... This will invalidate any old keys for this user."]) ;;
  tok <- read access_token ;;
  r <- generate_api_key_api tok ;;
  let '(api_key_data, error) := r in
  if truthy api_key_data then
    key <- getitem api_key_data "key_value" ;;
    set_generated_api_key key ;;
    emit (st_success [Lit "API Key generated successfully!"]) ;;
    st_rerun
  else
    emit (st_error [Lit "Failed to generate API Key: "; Fmt error]).

(** Lines 171-179. *)
Definition on_test_api_key : M unit :=
  emit (st_info [Lit "Attempting to access protected data using the API Key..."]) ;;
  key <- read generated_api_key ;;
  r <- get_protected_data_api key ;;
  let '(protected_data, error) := r in
  if truthy protected_data then
    emit (st_success [Lit "Successfully accessed protected data!"]) ;;
    emit (st_json protected_data)
  else
    emit (st_error [Lit "Failed to access protected data: "; Fmt error]) ;;
    emit (st_warning
            [Lit "This could be due to an invalid/expired key, or the backend is not running. Try generating a new key or checking the backend server."]).

(** Lines 182-188. *)
Definition on_logout : M unit :=
  set_logged_in false ;;
  set_username JNull ;;
  set_access_token JNull ;;
  set_generated_api_key JNull ;;
  emit (st_info [Lit "You have been logged out."]) ;;
  st_rerun.

(** Lines 203-211. *)
Definition on_submit_register (input_username input_password : string) : M unit :=
  if negb (str_nonempty input_username) || negb (str_nonempty input_password) then
    emit (st_warning [Lit "Please enter both username and password."])
  else
    emit (st_info [Lit "Attempting to register..."]) ;;
    r <- register_user_api input_username input_password ;;
    let '(user_data, error) := r in
    if truthy user_data then
      name <- getitem user_data "username" ;;
      emit (st_success [Lit "User '"; Fmt name;
                        Lit "' registered successfully! You can now log in."])
    else
      emit (st_error [Lit "Registration failed: "; Fmt error]).

(** Lines 214-231. *)
Definition on_submit_login (input_username input_password : string) : M unit :=
  if negb (str_nonempty input_username) || negb (str_nonempty input_password) then
    emit (st_warning [Lit "Please enter both username and password."])
  else
    emit (st_info [Lit "Attempting to log in..."]) ;;
    r <- login_user_api input_username input_password ;;
    let '(token_data, error) := r in
    if truthy token_data then
      tok <- getitem token_data "access_token" ;;
      set_access_token tok ;;
      tok' <- read access_token ;;
      r' <- get_current_user_api tok' ;;
      let '(user_info, user_error) := r' in
      if truthy user_info then
        set_logged_in true ;;
        name <- getitem user_info "username" ;;
        set_username name ;;
        name' <- read username ;;
        emit (st_success [Lit "Logged in as "; Fmt name'; Lit "!"]) ;;
        st_rerun
      else
        emit (st_error [Lit "Login successful, but failed to retrieve user info: ";
                        Fmt user_error; Lit ". Please try again."]) ;;
        set_access_token JNull
    else
      emit (st_error [Lit "Login failed: "; Fmt error]).

(** Lines 94-231: the page of a logged-in session, or the login/register
    form. *)
Definition script (ev : event) : M unit :=
  li <- read logged_in ;;
  if li then
    name <- read username ;;
    emit (st_success [Lit "Welcome, "; Fmt name; Lit "!"]) ;;
    when (refresh_profile_jwt ev) on_refresh_profile ;;
    show_api_key ev ;;
    when (generate_api_key ev) on_generate_api_key ;;
    key <- read generated_api_key ;;
    when (truthy key)
      (emit (st_write
               [Lit "Click the button below to access data using your generated API Key."]) ;;
       when (test_api_key_button ev) on_test_api_key) ;;
    when (logout_button ev) on_logout
  else
    match ev with
    | Submit Register u p => on_submit_register u p
    | Submit Login u p => on_submit_login u p
    | _ => ret tt
    end.

(** One run of the script on the stored session. *)
Definition run_script (be : backend) (ev : event) (s : session) : res unit :=
  script ev be (mkWorld s [] []).

Definition final {A} (r : res A) : world :=
  match r with Ret _ w => w | Halt _ w => w end.

Definition stopped {A} (r : res A) : option halt :=
  match r with Ret _ _ => None | Halt h _ => Some h end.

(** The session a run leaves behind, its output and its requests. *)
Definition step (be : backend) (ev : event) (s : session) : session :=
  sess (final (run_script be ev s)).
Definition shown (be : backend) (ev : event) (s : session) : list ui :=
  ui_log (final (run_script be ev s)).
Definition requests (be : backend) (ev : event) (s : session) : list request :=
  net_log (final (run_script be ev s)).

(** What a helper returns to its caller against a given backend. *)
Definition answer {A} (m : M A) (be : backend) : option A :=
  match m be (mkWorld initial_session [] []) with
  | Ret a _ => Some a
  | Halt _ _ => None
  end.

(** ** Reading the model *)

(** The spec's [authStatus]: [AUTHENTICATED] is [logged_in = True].
    [KEY_READY] is the logged-in page with the key section unlocked, the
    test at lines 111 and 167. *)
Definition key_ready (s : session) : bool :=
  logged_in s && truthy (generated_api_key s).

(** [AUTHENTICATED] requires a non-empty token; the username is non-null
    exactly when [AUTHENTICATED]. *)
Definition session_invariant (s : session) : Prop :=
  (logged_in s = true -> truthy (access_token s) = true) /\
  (username s <> JNull <-> logged_in s = true).

(** Sessions that runs of the script produce from a fresh process, against
    backends taken from [P], a possibly different one at every run. *)
Inductive reachable_with (P : backend -> Prop) : session -> Prop :=
| reach_init : reachable_with P (init_session_state None)
| reach_step (be : backend) (ev : event) (s : session) :
    P be -> reachable_with P s -> reachable_with P (step be ev s).

Definition reachable : session -> Prop := reachable_with (fun _ => True).

(** A backend whose credentials are never empty: an [access_token] it sends
    is non-empty, and a user record it sends names a non-null [username]. *)
Definition credentials_ok (r : request) (o : http_outcome) : bool :=
  match r, o with
  | PostToken _ _, Returned j =>
      match subscript j "access_token" with
      | inr tok => truthy tok
      | inl _ => true
      end
  | GetUsersMe _, Returned j =>
      if truthy j then
        match subscript j "username" with
        | inr JNull => false
        | inr _ => true
        | inl _ => false
        end
      else true
  | _, _ => true
  end.

Definition sends_credentials (be : backend) : Prop :=
  forall r, credentials_ok r (be r) = true.

(** The login call succeeded and delivered a token, and the verification
    call made with that token succeeded: success is what the script tests,
    a truthy [token_data] and a truthy [user_info]. *)
Definition login_verified (be : backend) (u p : string) : Prop :=
  exists token_data error tok user_info user_error,
    answer (login_user_api u p) be = Some (token_data, error) /\
    truthy token_data = true /\
    subscript token_data "access_token" = inr tok /\
    answer (get_current_user_api tok) be = Some (user_info, user_error) /\
    truthy user_info = true.

(** Backends used in the examples below. *)

(** Everything works: token [T] for any login, user [alice], key [K1]. *)
Definition be_ok : backend := fun r =>
  match r with
  | PostRegister u _ => Returned (JObj [("username", JStr u)])
  | PostToken _ _ => Returned (JObj [("access_token", JStr "T"); ("token_type", JStr "bearer")])
  | GetUsersMe _ => Returned (JObj [("username", JStr "alice")])
  | PostGenerateApiKey _ => Returned (JObj [("key_value", JStr "K1")])
  | GetApiKeyProtected _ => Returned (JObj [("message", JStr "hello")])
  end.

(** The backend answers 401 to everything. *)
Definition be_401 : backend := fun _ =>
  RaisedRequestException "401 Client Error: Unauthorized".

(** Login works, the verification that follows is rejected. *)
Definition be_unverified : backend := fun r =>
  match r with
  | PostToken _ _ => Returned (JObj [("access_token", JStr "T")])
  | _ => RaisedRequestException "401 Client Error: Unauthorized"
  end.

(** Login answers 200 with an empty token. *)
Definition be_empty_token : backend := fun r =>
  match r with
  | PostToken _ _ => Returned (JObj [("access_token", JStr "")])
  | o => be_ok o
  end.

(** Key generation answers 200 with an empty key. *)
Definition be_empty_key : backend := fun r =>
  match r with
  | PostGenerateApiKey _ => Returned (JObj [("key_value", JStr "")])
  | o => be_ok o
  end.

Definition alice_session : session :=
  mkSession true (JStr "alice") (JStr "T") JNull.
Definition alice_key_session : session :=
  mkSession true (JStr "alice") (JStr "T") (JStr "K1").

(** Session expiry after a key was generated: login, key generation, then
    a profile refresh that the backend rejects. *)
Definition expired_session : session :=
  step be_401 ClickRefreshProfile
    (step be_ok ClickGenerateApiKey
       (step be_ok (Submit Login "alice" "pw1") initial_session)).

(** The field each handler subscripts on a payload it accepted: lines 209,
    220, 101 and 224, 161.  The protected payload is shown whole. *)
Definition field_read (r : request) : option string :=
  match r with
  | PostRegister _ _ => Some "username"
  | PostToken _ _ => Some "access_token"
  | GetUsersMe _ => Some "username"
  | PostGenerateApiKey _ => Some "key_value"
  | GetApiKeyProtected _ => None
  end.

(** An accepted payload carries the field its handler reads. *)
Definition fields_ok (r : request) (o : http_outcome) : bool :=
  match o, field_read r with
  | Returned j, Some k =>
      if truthy j then
        match subscript j k with inr _ => true | inl _ => false end
      else true
  | _, _ => true
  end.

Definition sends_fields (be : backend) : Prop :=
  forall r, fields_ok r (be r) = true.

(** Where a request of a run may come from: the form inputs, the stored
    token or key, or the token the login answer just delivered. *)
Definition request_origin (be : backend) (ev : event) (s : session)
    (r : request) : Prop :=
  match r with
  | PostRegister u p => logged_in s = false /\ ev = Submit Register u p
  | PostToken u p => logged_in s = false /\ ev = Submit Login u p
  | GetUsersMe t =>
      (logged_in s = true /\ ev = ClickRefreshProfile /\ t = access_token s) \/
      (logged_in s = false /\
       exists u p token_data,
         ev = Submit Login u p /\
         be (PostToken u p) = Returned token_data /\
         subscript token_data "access_token" = inr t)
  | PostGenerateApiKey t =>
      logged_in s = true /\ ev = ClickGenerateApiKey /\ t = access_token s
  | GetApiKeyProtected k =>
      logged_in s = true /\ ev = ClickTestApiKey /\ k = generated_api_key s
  end.


(** ** Proof support *)

Ltac script_unfold :=
  unfold step, shown, requests, run_script, answer, script,
    on_refresh_profile, show_api_key, on_generate_api_key, on_test_api_key,
    on_logout, on_submit_register, on_submit_login,
    register_user_api, login_user_api, get_current_user_api,
    generate_api_key_api, get_protected_data_api,
    set_logged_in, set_username, set_access_token, set_generated_api_key,
    key_ready, init_session_state, initial_session in *.

(** Case analysis on the next undecided test of a run. *)
Ltac script_case :=
  match goal with
  | H : ?x = _ |- context [match ?x with _ => _ end] => rewrite H
  | |- context [match ?be ?r with _ => _ end] =>
      lazymatch type of (be r) with
      | http_outcome => let E := fresh "E" in destruct (be r) eqn:E
      end
  | |- context [if truthy ?v then _ else _] =>
      let E := fresh "E" in destruct (truthy v) eqn:E
  | |- context [match subscript ?v ?k with _ => _ end] =>
      let E := fresh "E" in destruct (subscript v k) eqn:E
  | |- context [negb (str_nonempty ?v)] =>
      let E := fresh "E" in destruct (str_nonempty v) eqn:E
  end.

Ltac script_run := script_unfold; cbn; repeat (script_case; cbn).

(** What a helper answers is decided by the outcome of its one request. *)
Ltac answer_inv H :=
  unfold answer, register_user_api, login_user_api, get_current_user_api,
    generate_api_key_api, get_protected_data_api in H;
  cbn in H;
  match type of H with
  | context [match ?be ?r with _ => _ end] =>
      let E := fresh "E" in
      destruct (be r) eqn:E; inversion H; subst; clear H
  end.

(** ** Examples: the scenarios of the spec *)

Example login_alice :
  run_script be_ok (Submit Login "alice" "pw1") initial_session
  = Halt Rerun
      (mkWorld alice_session
         [st_info [Lit "Attempting to log in..."];
          st_success [Lit "Logged in as "; Fmt (JStr "alice"); Lit "!"]]
         [PostToken "alice" "pw1"; GetUsersMe (JStr "T")]).
Proof. reflexivity. Qed.

Example login_wrong_password :
  run_script be_401 (Submit Login "alice" "bad") initial_session
  = Ret tt
      (mkWorld initial_session
         [st_info [Lit "Attempting to log in..."];
          st_error [Lit "Login failed: ";
                    Fmt (JStr "Error connecting to backend or invalid response: 401 Client Error: Unauthorized")]]
         [PostToken "alice" "bad"]).
Proof. reflexivity. Qed.

Example generate_then_test :
  step be_ok ClickGenerateApiKey alice_session = alice_key_session /\
  run_script be_ok ClickTestApiKey alice_key_session
  = Ret tt
      (mkWorld alice_key_session
         [st_success [Lit "Welcome, "; Fmt (JStr "alice"); Lit "!"];
          st_info [Lit "Your API Key (keep it secret and do not share!):"];
          st_code (JStr "K1");
          st_write [Lit "Click the button below to access data using your generated API Key."];
          st_info [Lit "Attempting to access protected data using the API Key..."];
          st_success [Lit "Successfully accessed protected data!"];
          st_json (JObj [("message", JStr "hello")])]
         [GetApiKeyProtected (JStr "K1")]).
Proof. split; reflexivity. Qed.

(** The run that follows [st.rerun()] changes nothing and asks nothing. *)
Lemma no_event_run (be : backend) (s : session) :
  step be NoEvent s = s /\ requests be NoEvent s = [].
Proof.
  destruct s as [li un tok key]; destruct li; script_run; split; reflexivity.
Qed.

(** Every helper failure comes back as [(None, message)]. *)
Lemma helpers_return_error_pairs (be : backend) :
  (forall u p, (exists j, be (PostRegister u p) = Returned j) \/
     exists m, answer (register_user_api u p) be = Some (JNull, JStr m)) /\
  (forall u p, (exists j, be (PostToken u p) = Returned j) \/
     exists m, answer (login_user_api u p) be = Some (JNull, JStr m)) /\
  (forall t, (exists j, be (GetUsersMe t) = Returned j) \/
     exists m, answer (get_current_user_api t) be = Some (JNull, JStr m)) /\
  (forall t, (exists j, be (PostGenerateApiKey t) = Returned j) \/
     exists m, answer (generate_api_key_api t) be = Some (JNull, JStr m)) /\
  (forall k, (exists j, be (GetApiKeyProtected k) = Returned j) \/
     exists m, answer (get_protected_data_api k) be = Some (JNull, JStr m)).
Proof.
  repeat split; intros; script_unfold; cbn;
    match goal with
    | |- context [be ?r] => destruct (be r)
    end; eauto.
Qed.

(** [register_user_api] is the helper that formats the exception into both
    of its messages. *)
Lemma register_user_api_passes_description (be : backend) (u p e : string) :
  (be (PostRegister u p) = RaisedRequestException e ->
   answer (register_user_api u p) be
   = Some (JNull, JStr ("Error connecting to backend or invalid response: " ++ e))) /\
  (be (PostRegister u p) = RaisedException e ->
   answer (register_user_api u p) be
   = Some (JNull, JStr ("An unexpected error occurred: " ++ e))).
Proof. split; intros H; script_unfold; cbn; rewrite H; reflexivity. Qed.

(** ** The claims *)

Lemma answer_login_user_api (be : backend) (u p : string) :
  answer (login_user_api u p) be
  = Some match be (PostToken u p) with
         | Returned j => (j, JNull)
         | RaisedRequestException e =>
             (JNull, JStr ("Error connecting to backend or invalid response: " ++ e))
         | RaisedException _ => (JNull, JStr "An unexpected error occurred: e")
         end.
Proof. reflexivity. Qed.

Lemma answer_get_current_user_api (be : backend) (tok : pyval) :
  answer (get_current_user_api tok) be
  = Some match be (GetUsersMe tok) with
         | Returned j => (j, JNull)
         | RaisedRequestException _ =>
             (JNull, JStr "Error connecting to backend or invalid response: e")
         | RaisedException _ => (JNull, JStr "An unexpected error occurred: e")
         end.
Proof. reflexivity. Qed.

Lemma login_verified_inv (be : backend) (u p : string) :
  login_verified be u p ->
  exists token_data tok user_info,
    be (PostToken u p) = Returned token_data /\
    truthy token_data = true /\
    subscript token_data "access_token" = inr tok /\
    be (GetUsersMe tok) = Returned user_info /\
    truthy user_info = true.
Proof.
  intros (token_data & error & tok & user_info & user_error
          & Hlogin & Ht & Hsub & Hme & Hu).
  rewrite answer_login_user_api in Hlogin.
  rewrite answer_get_current_user_api in Hme.
  destruct (be (PostToken u p)) eqn:E1; inversion Hlogin; subst;
    try discriminate.
  destruct (be (GetUsersMe tok)) eqn:E2; inversion Hme; subst;
    try discriminate.
  eauto 10.
Qed.

(** C1. [submitLogin] with both fields filled in, from a logged-out
    session.  The session ends logged in exactly when the login call
    succeeded with a token and the verification call with that token
    succeeded too.  When the login succeeded and the verification failed,
    the run shows the message "Login successful, but failed to retrieve user
    info", which no plain login failure shows, resets [access_token] to
    [None] and leaves [logged_in] at [False].  When both succeeded, the
    session holds the token and the username of the two answers. *)
Theorem submit_login_needs_both_calls
  (be : backend) (s : session) (u p : string) :
  logged_in s = false ->
  str_nonempty u = true ->
  str_nonempty p = true ->
  (logged_in (step be (Submit Login u p) s) = true <-> login_verified be u p) /\
  (forall token_data error tok user_info user_error name,
     answer (login_user_api u p) be = Some (token_data, error) ->
     truthy token_data = true ->
     subscript token_data "access_token" = inr tok ->
     answer (get_current_user_api tok) be = Some (user_info, user_error) ->
     truthy user_info = true ->
     subscript user_info "username" = inr name ->
     step be (Submit Login u p) s
     = mkSession true name tok (generated_api_key s) /\
     stopped (run_script be (Submit Login u p) s) = Some Rerun) /\
  (forall token_data error tok user_info user_error,
     answer (login_user_api u p) be = Some (token_data, error) ->
     truthy token_data = true ->
     subscript token_data "access_token" = inr tok ->
     answer (get_current_user_api tok) be = Some (user_info, user_error) ->
     truthy user_info = false ->
     shown be (Submit Login u p) s
     = [st_info [Lit "Attempting to log in..."];
        st_error [Lit "Login successful, but failed to retrieve user info: ";
                  Fmt user_error; Lit ". Please try again."]] /\
     (forall e,
        st_error [Lit "Login successful, but failed to retrieve user info: ";
                  Fmt user_error; Lit ". Please try again."]
        <> st_error [Lit "Login failed: "; Fmt e]) /\
     requests be (Submit Login u p) s = [PostToken u p; GetUsersMe tok] /\
     access_token (step be (Submit Login u p) s) = JNull /\
     logged_in (step be (Submit Login u p) s) = false /\
     step be (Submit Login u p) s
     = mkSession false (username s) JNull (generated_api_key s)).
Proof.
  destruct s as [li un tok0 key]; cbn [logged_in username generated_api_key].
  intros -> Hu Hp. split; [ | split].
  - split.
    + intros Hlogged. unfold login_verified.
      setoid_rewrite answer_login_user_api.
      setoid_rewrite answer_get_current_user_api.
      revert Hlogged.
      script_unfold; cbn; rewrite Hu, Hp; cbn.
      repeat (script_case; cbn); intros Hlogged; try discriminate;
        match goal with
        | E1 : be (PostToken u p) = Returned ?td,
          S1 : subscript ?td _ = inr ?t,
          E2 : be (GetUsersMe ?t) = Returned ?ui |- _ =>
            exists td, JNull, t, ui, JNull; rewrite ?E1, ?S1, ?E2; auto
        end.
    + intros Hv. apply login_verified_inv in Hv.
      destruct Hv as (token_data & tok & user_info & E1 & T1 & S1 & E2 & T2).
      script_unfold; cbn; rewrite Hu, Hp; cbn.
      rewrite E1; cbn. rewrite T1; cbn. rewrite S1; cbn.
      rewrite E2; cbn. rewrite T2; cbn.
      destruct (subscript user_info "username"); reflexivity.
  - intros token_data error tok user_info user_error name Hlogin T1 S1 Hme T2 S2.
    rewrite answer_login_user_api in Hlogin.
    rewrite answer_get_current_user_api in Hme.
    assert (E1 : be (PostToken u p) = Returned token_data).
    { destruct (be (PostToken u p)); inversion Hlogin; subst;
        [reflexivity | discriminate | discriminate]. }
    assert (E2 : be (GetUsersMe tok) = Returned user_info).
    { destruct (be (GetUsersMe tok)); inversion Hme; subst;
        [reflexivity | discriminate | discriminate]. }
    script_unfold; cbn; rewrite Hu, Hp; cbn.
    rewrite E1; cbn. rewrite T1; cbn. rewrite S1; cbn.
    rewrite E2; cbn. rewrite T2; cbn. rewrite S2; cbn.
    split; reflexivity.
  - intros token_data error tok user_info user_error Hlogin T1 S1 Hme T2.
    rewrite answer_login_user_api in Hlogin.
    rewrite answer_get_current_user_api in Hme.
    assert (E1 : be (PostToken u p) = Returned token_data).
    { destruct (be (PostToken u p)); inversion Hlogin; subst;
        [reflexivity | discriminate | discriminate]. }
    script_unfold; cbn; rewrite Hu, Hp; cbn.
    rewrite E1; cbn. rewrite T1; cbn. rewrite S1; cbn.
    destruct (be (GetUsersMe tok)) eqn:E2; inversion Hme; subst; cbn;
      rewrite ?T2; cbn; repeat split; try reflexivity; intros; discriminate.
Qed.

Lemma submit_login_needs_both_calls_witness :
  logged_in initial_session = false /\
  str_nonempty "alice" = true /\
  str_nonempty "pw1" = true /\
  access_token (step be_unverified (Submit Login "alice" "pw1") initial_session)
  = JNull.
Proof.
  repeat (split; [reflexivity | ]).
  apply (proj2 (proj2 (submit_login_needs_both_calls be_unverified
                         initial_session "alice" "pw1"
                         eq_refl eq_refl eq_refl)))
    with (token_data := JObj [("access_token", JStr "T")]) (error := JNull)
         (tok := JStr "T") (user_info := JNull)
         (user_error := JStr "Error connecting to backend or invalid response: e");
    reflexivity.
Defined.

(** C2, as stated, fails: a backend that answers the login with an empty
    [access_token] and then accepts the verification leaves the session
    logged in with an empty token. *)
Lemma empty_token_breaks_invariant :
  reachable (step be_empty_token (Submit Login "alice" "pw1") initial_session) /\
  step be_empty_token (Submit Login "alice" "pw1") initial_session
  = mkSession true (JStr "alice") (JStr "") JNull /\
  ~ session_invariant
      (step be_empty_token (Submit Login "alice" "pw1") initial_session).
Proof.
  split; [ | split].
  - apply (reach_step (fun _ => True) be_empty_token
             (Submit Login "alice" "pw1") initial_session I).
    apply reach_init.
  - reflexivity.
  - intros [Htok _]. specialize (Htok eq_refl). discriminate Htok.
Qed.

Lemma step_keeps_invariant (be : backend) (ev : event) (s : session) :
  sends_credentials be ->
  (if logged_in s
   then truthy (access_token s) = true /\ username s <> JNull
   else username s = JNull) ->
  if logged_in (step be ev s)
  then truthy (access_token (step be ev s)) = true
       /\ username (step be ev s) <> JNull
  else username (step be ev s) = JNull.
Proof.
  intros Hbe. destruct s as [li un tok key];
    cbn [logged_in username access_token].
  destruct li; intros Hinv.
  - destruct ev; script_run; auto.
  - subst un. destruct ev as [ | | | | | | [ | ] u p]; script_run; auto;
      repeat match goal with
        | E : be ?r = Returned _ |- _ =>
            let H := fresh "H" in
            pose proof (Hbe r) as H; rewrite E in H; cbn in H; clear E
        end;
      repeat match goal with
        | H : context [subscript ?v ?k], E : subscript ?v ?k = _ |- _ =>
            rewrite E in H
        | H : context [truthy ?v], E : truthy ?v = _ |- _ =>
            rewrite E in H
        end;
      try discriminate;
      (split; [assumption | ]);
      match goal with
      | H : match ?x with JNull => _ | _ => _ end = true |- ?x <> JNull =>
          intros ->; discriminate H
      end.
Qed.

(** C2, amended.  Against backends that never send an empty [access_token]
    nor a user record without a [username], every session reachable from
    the fresh one by runs of the script keeps the invariant: logged in
    implies a non-empty token, and the username is non-null exactly when
    logged in. *)
Theorem reachable_sessions_keep_invariant (s : session) :
  reachable_with sends_credentials s -> session_invariant s.
Proof.
  intros Hreach.
  assert (Hinv : if logged_in s
                 then truthy (access_token s) = true /\ username s <> JNull
                 else username s = JNull).
  { induction Hreach as [ | be ev s Hbe _ IH].
    - reflexivity.
    - apply step_keeps_invariant; assumption. }
  unfold session_invariant. destruct (logged_in s).
  - destruct Hinv as [Htok Hname]. split; [auto | tauto].
  - split; [discriminate | ]. split; [congruence | discriminate].
Qed.

Lemma be_ok_sends_credentials : sends_credentials be_ok.
Proof. intros [u p | u p | tok | tok | key]; reflexivity. Qed.

Lemma reachable_sessions_keep_invariant_witness :
  reachable_with sends_credentials alice_session /\
  session_invariant alice_session.
Proof.
  assert (H : reachable_with sends_credentials alice_session).
  { apply (reach_step sends_credentials be_ok (Submit Login "alice" "pw1")
             initial_session be_ok_sends_credentials).
    apply reach_init. }
  split; [exact H | ].
  apply (reachable_sessions_keep_invariant alice_session H).
Defined.

(** C3. [refreshProfile] from a logged-in session, when [get_current_user_api]
    reports a failure: the run shows the message that the session might have
    expired and asks to log in again, sets [logged_in] to [False], clears
    [username] and [access_token] and reruns the script.  The interaction is
    the click on the refresh button alone; the one request is the profile
    fetch with the stored token. *)
Theorem refresh_failure_is_implicit_logout
  (be : backend) (s : session) (user_info error : pyval) :
  logged_in s = true ->
  answer (get_current_user_api (access_token s)) be = Some (user_info, error) ->
  truthy user_info = false ->
  step be ClickRefreshProfile s
  = mkSession false JNull JNull (generated_api_key s) /\
  shown be ClickRefreshProfile s
  = [st_success [Lit "Welcome, "; Fmt (username s); Lit "!"];
     st_error [Lit "Failed to fetch profile: "; Fmt error;
               Lit ". Your session might have expired. Please log in again."]] /\
  stopped (run_script be ClickRefreshProfile s) = Some Rerun /\
  requests be ClickRefreshProfile s = [GetUsersMe (access_token s)].
Proof.
  destruct s as [li un tok key]; cbn [logged_in access_token username generated_api_key].
  intros -> Hans Hfalse. answer_inv Hans;
    script_run; try congruence; repeat split; reflexivity.
Qed.

Lemma refresh_failure_is_implicit_logout_witness :
  logged_in alice_key_session = true /\
  step be_401 ClickRefreshProfile alice_key_session
  = mkSession false JNull JNull (JStr "K1").
Proof.
  split; [reflexivity | ].
  apply (refresh_failure_is_implicit_logout be_401 alice_key_session JNull
           (JStr "Error connecting to backend or invalid response: e"));
    reflexivity.
Defined.

(** C4. [logout] from any logged-in session, with or without an API key:
    the session ends with [logged_in = False] and [username], [access_token]
    and [generated_api_key] all [None], whatever they were, and the run
    issues no request. *)
Theorem logout_clears_session (be : backend) (s : session) :
  logged_in s = true ->
  step be ClickLogout s = mkSession false JNull JNull JNull /\
  requests be ClickLogout s = [] /\
  stopped (run_script be ClickLogout s) = Some Rerun /\
  In (st_info [Lit "You have been logged out."]) (shown be ClickLogout s).
Proof.
  destruct s as [li un tok key]; cbn [logged_in]. intros ->.
  script_run; repeat split; try reflexivity; cbn; tauto.
Qed.

Lemma logout_clears_session_witness :
  logged_in alice_key_session = true /\
  step be_ok ClickLogout alice_key_session = mkSession false JNull JNull JNull /\
  requests be_ok ClickLogout alice_key_session = [].
Proof.
  split; [reflexivity | ].
  pose proof (logout_clears_session be_ok alice_key_session eq_refl)
    as (Hstep & Hreq & _).
  split; [exact Hstep | exact Hreq].
Defined.

(** C5. The form submitted for Register or for Login with an empty username
    or an empty password: no request is issued, the run shows the warning
    to enter both fields, and the session is unchanged. *)
Theorem empty_field_is_rejected_locally
  (be : backend) (s : session) (c : choice) (u p : string) :
  logged_in s = false ->
  str_nonempty u = false \/ str_nonempty p = false ->
  requests be (Submit c u p) s = [] /\
  shown be (Submit c u p) s
  = [st_warning [Lit "Please enter both username and password."]] /\
  step be (Submit c u p) s = s /\
  stopped (run_script be (Submit c u p) s) = None.
Proof.
  destruct s as [li un tok key]; cbn [logged_in]. intros -> Hempty.
  assert (Hor : negb (str_nonempty u) || negb (str_nonempty p) = true).
  { destruct Hempty as [-> | ->]; cbn; [reflexivity | apply orb_true_r]. }
  destruct c; script_unfold; cbn; rewrite Hor; cbn; repeat split; reflexivity.
Qed.

Lemma empty_field_is_rejected_locally_witness :
  logged_in initial_session = false /\
  (str_nonempty "alice" = false \/ str_nonempty "" = false) /\
  requests be_ok (Submit Login "alice" "") initial_session = [] /\
  step be_ok (Submit Login "alice" "") initial_session = initial_session.
Proof.
  split; [reflexivity | ]. split; [right; reflexivity | ].
  split;
    apply (empty_field_is_rejected_locally be_ok initial_session Login "alice" "");
    solve [reflexivity | right; reflexivity].
Defined.

(** C6, as stated, fails when the backend answers 200 with an empty
    [key_value]: the key generation succeeded and the empty key is stored,
    but the key section stays locked, the session is not [KEY_READY]. *)
Lemma generate_empty_key_not_key_ready :
  logged_in alice_session = true /\
  answer (generate_api_key_api (access_token alice_session)) be_empty_key
  = Some (JObj [("key_value", JStr "")], JNull) /\
  truthy (JObj [("key_value", JStr "")]) = true /\
  subscript (JObj [("key_value", JStr "")]) "key_value" = inr (JStr "") /\
  generated_api_key (step be_empty_key ClickGenerateApiKey alice_session)
  = JStr "" /\
  key_ready (step be_empty_key ClickGenerateApiKey alice_session) = false.
Proof. repeat split; reflexivity. Qed.

(** C6, amended.  [generateKey] from a logged-in session, with or without a
    key: on success the run stores the returned [key_value] over the old
    key, changes nothing else and reruns, and the session is [KEY_READY]
    when that key is non-empty; on failure the session is unchanged and the
    run shows "Failed to generate API Key" with the error. *)
Theorem generate_key_overwrites (be : backend) (s : session)
  (api_key_data error : pyval) :
  logged_in s = true ->
  answer (generate_api_key_api (access_token s)) be = Some (api_key_data, error) ->
  requests be ClickGenerateApiKey s = [PostGenerateApiKey (access_token s)] /\
  (forall key,
     truthy api_key_data = true ->
     subscript api_key_data "key_value" = inr key ->
     step be ClickGenerateApiKey s
     = mkSession true (username s) (access_token s) key /\
     stopped (run_script be ClickGenerateApiKey s) = Some Rerun /\
     key_ready (step be ClickGenerateApiKey s) = truthy key) /\
  (truthy api_key_data = false ->
   step be ClickGenerateApiKey s = s /\
   stopped (run_script be ClickGenerateApiKey s) = None /\
   In (st_error [Lit "Failed to generate API Key: "; Fmt error])
      (shown be ClickGenerateApiKey s)).
Proof.
  destruct s as [li un tok key0];
    cbn [logged_in username access_token generated_api_key].
  intros -> Hans. answer_inv Hans;
    script_run; repeat split; intros; try reflexivity; try congruence;
    try (cbn; tauto).
Qed.

Lemma generate_key_overwrites_witness :
  logged_in alice_session = true /\
  step be_ok ClickGenerateApiKey alice_session = alice_key_session /\
  key_ready (step be_ok ClickGenerateApiKey alice_session) = true.
Proof.
  split; [reflexivity | ].
  pose proof (generate_key_overwrites be_ok alice_session
                (JObj [("key_value", JStr "K1")]) JNull eq_refl eq_refl)
    as (_ & Hok & _).
  destruct (Hok (JStr "K1") eq_refl eq_refl) as (Hstep & _ & Hready).
  split; [exact Hstep | exact Hready].
Defined.

(** C7. [testProtectedAccess] from a logged-in session holding an API key:
    the run sends that key to the protected endpoint and leaves every
    session variable as it was; a payload is shown with the success message,
    a failure with its error message, and the key is kept in both cases. *)
Theorem test_access_leaves_session (be : backend) (s : session)
  (protected_data error : pyval) :
  logged_in s = true ->
  truthy (generated_api_key s) = true ->
  answer (get_protected_data_api (generated_api_key s)) be
  = Some (protected_data, error) ->
  step be ClickTestApiKey s = s /\
  requests be ClickTestApiKey s = [GetApiKeyProtected (generated_api_key s)] /\
  stopped (run_script be ClickTestApiKey s) = None /\
  (truthy protected_data = true ->
   In (st_success [Lit "Successfully accessed protected data!"])
      (shown be ClickTestApiKey s) /\
   In (st_json protected_data) (shown be ClickTestApiKey s)) /\
  (truthy protected_data = false ->
   In (st_error [Lit "Failed to access protected data: "; Fmt error])
      (shown be ClickTestApiKey s)).
Proof.
  destruct s as [li un tok key]; cbn [logged_in generated_api_key].
  intros -> Hkey Hans. answer_inv Hans;
    script_run; repeat split; try reflexivity; try congruence;
    intros; cbn; tauto.
Qed.

Lemma test_access_leaves_session_witness :
  logged_in alice_key_session = true /\
  truthy (generated_api_key alice_key_session) = true /\
  step be_401 ClickTestApiKey alice_key_session = alice_key_session.
Proof.
  split; [reflexivity | ]. split; [reflexivity | ].
  exact (proj1 (test_access_leaves_session be_401 alice_key_session JNull
                  (JStr "Error connecting to backend or invalid response: e")
                  eq_refl eq_refl eq_refl)).
Defined.

(** C8. The helpers other than [register_user_api] answer a failure with a
    fixed message that ends in the letter [e]: whatever the description of
    the failure, it is not in the message, and so not in what the page
    shows.  [login_user_api] does so for exceptions other than
    [RequestException]. *)
Theorem helper_messages_drop_description (e : string) (v : pyval) (u p : string) :
  answer (get_current_user_api v) (fun _ => RaisedRequestException e)
  = Some (JNull, JStr "Error connecting to backend or invalid response: e") /\
  answer (get_current_user_api v) (fun _ => RaisedException e)
  = Some (JNull, JStr "An unexpected error occurred: e") /\
  answer (generate_api_key_api v) (fun _ => RaisedRequestException e)
  = Some (JNull, JStr "Error connecting to backend or invalid response: e") /\
  answer (generate_api_key_api v) (fun _ => RaisedException e)
  = Some (JNull, JStr "An unexpected error occurred: e") /\
  answer (get_protected_data_api v) (fun _ => RaisedRequestException e)
  = Some (JNull, JStr "Error connecting to backend or invalid response: e") /\
  answer (get_protected_data_api v) (fun _ => RaisedException e)
  = Some (JNull, JStr "An unexpected error occurred: e") /\
  answer (login_user_api u p) (fun _ => RaisedException e)
  = Some (JNull, JStr "An unexpected error occurred: e") /\
  shown (fun _ => RaisedRequestException e) ClickRefreshProfile alice_session
  = [st_success [Lit "Welcome, "; Fmt (JStr "alice"); Lit "!"];
     st_error [Lit "Failed to fetch profile: ";
               Fmt (JStr "Error connecting to backend or invalid response: e");
               Lit ". Your session might have expired. Please log in again."]].
Proof. repeat split; reflexivity. Qed.

(** C9. [submitRegister] with both fields filled in: whatever the backend
    answers, the session is exactly what it was, so still logged out, and
    the one request is the registration.  A user record in the answer is
    confirmed with the message that the user can now log in; a failure is
    shown as "Registration failed" with its error. *)
Theorem register_leaves_session (be : backend) (s : session) (u p : string)
  (user_data error : pyval) :
  logged_in s = false ->
  str_nonempty u = true ->
  str_nonempty p = true ->
  answer (register_user_api u p) be = Some (user_data, error) ->
  step be (Submit Register u p) s = s /\
  logged_in (step be (Submit Register u p) s) = false /\
  requests be (Submit Register u p) s = [PostRegister u p] /\
  (forall name,
     truthy user_data = true ->
     subscript user_data "username" = inr name ->
     shown be (Submit Register u p) s
     = [st_info [Lit "Attempting to register..."];
        st_success [Lit "User '"; Fmt name;
                    Lit "' registered successfully! You can now log in."]]) /\
  (truthy user_data = false ->
   shown be (Submit Register u p) s
   = [st_info [Lit "Attempting to register..."];
      st_error [Lit "Registration failed: "; Fmt error]]).
Proof.
  destruct s as [li un tok key]; cbn [logged_in].
  intros -> Hu Hp Hans. answer_inv Hans;
    script_unfold; cbn; rewrite Hu, Hp; cbn; rewrite E; cbn;
    repeat (script_case; cbn);
    repeat split; try reflexivity; try congruence;
    intros; congruence.
Qed.

Lemma register_leaves_session_witness :
  logged_in initial_session = false /\
  str_nonempty "alice" = true /\
  str_nonempty "pw1" = true /\
  step be_ok (Submit Register "alice" "pw1") initial_session = initial_session.
Proof.
  repeat (split; [reflexivity | ]).
  apply (register_leaves_session be_ok initial_session "alice" "pw1"
           (JObj [("username", JStr "alice")]) JNull);
    reflexivity.
Defined.

Lemma reachable_with_any (P : backend -> Prop) (s : session) :
  reachable_with P s -> reachable s.
Proof.
  induction 1 as [ | be ev s _ _ IH].
  - apply reach_init.
  - apply (reach_step (fun _ => True) be ev s I IH).
Qed.

Lemma be_401_sends_credentials : sends_credentials be_401.
Proof. intros [u p | u p | tok | tok | key]; reflexivity. Qed.

Lemma expired_session_reachable :
  reachable_with sends_credentials expired_session.
Proof.
  unfold expired_session.
  apply reach_step; [exact be_401_sends_credentials | ].
  apply reach_step; [exact be_ok_sends_credentials | ].
  apply reach_step; [exact be_ok_sends_credentials | ].
  apply reach_init.
Qed.

(** C10. A refresh run never writes [generated_api_key], so the implicit
    logout keeps the key: the logged-out session that still holds key [K1]
    is reachable.  While logged out no run touches the key; the logout
    button of a later logged-in session resets it to [None]. *)
Theorem stale_api_key_survives_expiry :
  (forall be s,
     generated_api_key (step be ClickRefreshProfile s) = generated_api_key s) /\
  (reachable expired_session /\
   expired_session = mkSession false JNull JNull (JStr "K1") /\
   logged_in expired_session = false /\
   generated_api_key expired_session <> JNull) /\
  (forall be ev s,
     logged_in s = false ->
     generated_api_key (step be ev s) = generated_api_key s) /\
  (forall be s,
     logged_in s = true ->
     generated_api_key (step be ClickLogout s) = JNull).
Proof.
  split; [ | split; [ | split]].
  - intros be [li un tok key]. destruct li; script_run; reflexivity.
  - split; [ | repeat split; discriminate].
    apply (reachable_with_any sends_credentials).
    exact expired_session_reachable.
  - intros be ev [li un tok key]; cbn [logged_in generated_api_key].
    intros ->. destruct ev as [ | | | | | | [ | ] u p]; script_run; reflexivity.
  - intros be [li un tok key]; cbn [logged_in]. intros ->.
    script_run; reflexivity.
Qed.

(** ** Further properties of the script *)


(** A failed registration or login shows the description of the failure:
    the message of [register_user_api], and of [login_user_api] for a
    [RequestException], ends with [str(e)] and is shown after "Registration
    failed: " or "Login failed: ". *)
Theorem form_failures_show_description
  (be : backend) (s : session) (u p e : string) :
  logged_in s = false ->
  str_nonempty u = true ->
  str_nonempty p = true ->
  (be (PostRegister u p) = RaisedRequestException e ->
   shown be (Submit Register u p) s
   = [st_info [Lit "Attempting to register..."];
      st_error [Lit "Registration failed: ";
                Fmt (JStr ("Error connecting to backend or invalid response: " ++ e))]]) /\
  (be (PostRegister u p) = RaisedException e ->
   shown be (Submit Register u p) s
   = [st_info [Lit "Attempting to register..."];
      st_error [Lit "Registration failed: ";
                Fmt (JStr ("An unexpected error occurred: " ++ e))]]) /\
  (be (PostToken u p) = RaisedRequestException e ->
   shown be (Submit Login u p) s
   = [st_info [Lit "Attempting to log in..."];
      st_error [Lit "Login failed: ";
                Fmt (JStr ("Error connecting to backend or invalid response: " ++ e))]]).
Proof.
  destruct s as [li un tok key]; cbn [logged_in]. intros -> Hu Hp.
  repeat split; intros E; script_unfold; cbn; rewrite Hu, Hp; cbn;
    rewrite E; reflexivity.
Qed.

Lemma form_failures_show_description_witness :
  logged_in initial_session = false /\
  str_nonempty "alice" = true /\
  str_nonempty "bad" = true /\
  shown be_401 (Submit Login "alice" "bad") initial_session
  = [st_info [Lit "Attempting to log in..."];
     st_error [Lit "Login failed: ";
               Fmt (JStr "Error connecting to backend or invalid response: 401 Client Error: Unauthorized")]].
Proof.
  repeat (split; [reflexivity | ]).
  apply (form_failures_show_description be_401 initial_session "alice" "bad"
           "401 Client Error: Unauthorized" eq_refl eq_refl eq_refl).
  reflexivity.
Defined.

(** A login whose first call fails stops there: one request, no
    verification call, "Login failed" with the error, the session as it
    was and no rerun. *)
Theorem login_failure_leaves_session
  (be : backend) (s : session) (u p : string) (token_data error : pyval) :
  logged_in s = false ->
  str_nonempty u = true ->
  str_nonempty p = true ->
  answer (login_user_api u p) be = Some (token_data, error) ->
  truthy token_data = false ->
  step be (Submit Login u p) s = s /\
  requests be (Submit Login u p) s = [PostToken u p] /\
  shown be (Submit Login u p) s
  = [st_info [Lit "Attempting to log in..."];
     st_error [Lit "Login failed: "; Fmt error]] /\
  stopped (run_script be (Submit Login u p) s) = None.
Proof.
  destruct s as [li un tok key]; cbn [logged_in]. intros -> Hu Hp Hans Hf.
  answer_inv Hans; script_unfold; cbn; rewrite Hu, Hp; cbn; rewrite E; cbn;
    rewrite ?Hf; cbn; repeat split; reflexivity.
Qed.

Lemma login_failure_leaves_session_witness :
  logged_in initial_session = false /\
  str_nonempty "alice" = true /\
  str_nonempty "bad" = true /\
  step be_401 (Submit Login "alice" "bad") initial_session = initial_session.
Proof.
  repeat (split; [reflexivity | ]).
  apply (login_failure_leaves_session be_401 initial_session "alice" "bad" JNull
           (JStr "Error connecting to backend or invalid response: 401 Client Error: Unauthorized"));
    reflexivity.
Defined.

(** A login answer that is accepted but has no [access_token] (an object
    without that member, or a truthy value that is no object) ends the run
    in the uncaught exception of line 220: nothing is stored, the
    verification call is not made, no error message is shown. *)
Theorem login_without_token_raises
  (be : backend) (s : session) (u p : string) (token_data : pyval) (e : pyexn) :
  logged_in s = false ->
  str_nonempty u = true ->
  str_nonempty p = true ->
  be (PostToken u p) = Returned token_data ->
  truthy token_data = true ->
  subscript token_data "access_token" = inl e ->
  run_script be (Submit Login u p) s
  = Halt (Uncaught e)
      (mkWorld s [st_info [Lit "Attempting to log in..."]] [PostToken u p]).
Proof.
  destruct s as [li un tok key]; cbn [logged_in]. intros -> Hu Hp E Ht Hs.
  script_unfold; cbn; rewrite Hu, Hp; cbn; rewrite E; cbn; rewrite Ht; cbn;
    rewrite Hs; reflexivity.
Qed.

Lemma login_without_token_raises_witness :
  run_script (fun _ => Returned (JObj [("detail", JStr "ok")]))
    (Submit Login "alice" "pw1") initial_session
  = Halt (Uncaught (KeyError "access_token"))
      (mkWorld initial_session [st_info [Lit "Attempting to log in..."]]
         [PostToken "alice" "pw1"]).
Proof.
  apply (login_without_token_raises
           (fun _ => Returned (JObj [("detail", JStr "ok")]))
           initial_session "alice" "pw1" (JObj [("detail", JStr "ok")])
           (KeyError "access_token"));
    reflexivity.
Defined.

(** A verification answer that is accepted but has no [username]: line 223
    has already set [logged_in] when line 224 raises, so the run ends in the
    uncaught exception with the session logged in, the token stored and the
    username still [None]; no rerun is requested. *)
Theorem verification_without_username_logs_in
  (be : backend) (s : session) (u p : string)
  (token_data tok user_info : pyval) (e : pyexn) :
  logged_in s = false ->
  str_nonempty u = true ->
  str_nonempty p = true ->
  be (PostToken u p) = Returned token_data ->
  truthy token_data = true ->
  subscript token_data "access_token" = inr tok ->
  be (GetUsersMe tok) = Returned user_info ->
  truthy user_info = true ->
  subscript user_info "username" = inl e ->
  run_script be (Submit Login u p) s
  = Halt (Uncaught e)
      (mkWorld (mkSession true (username s) tok (generated_api_key s))
         [st_info [Lit "Attempting to log in..."]]
         [PostToken u p; GetUsersMe tok]).
Proof.
  destruct s as [li un tok0 key]; cbn [logged_in username generated_api_key].
  intros -> Hu Hp E1 T1 S1 E2 T2 S2.
  script_unfold; cbn; rewrite Hu, Hp; cbn; rewrite E1; cbn; rewrite T1; cbn;
    rewrite S1; cbn; rewrite E2; cbn; rewrite T2; cbn; rewrite S2; reflexivity.
Qed.

Lemma verification_without_username_logs_in_witness :
  step (fun r => match r with
                 | PostToken _ _ => Returned (JObj [("access_token", JStr "T")])
                 | _ => Returned (JObj [("id", JInt 7)])
                 end)
    (Submit Login "alice" "pw1") initial_session
  = mkSession true JNull (JStr "T") JNull.
Proof.
  unfold step.
  rewrite (verification_without_username_logs_in
             (fun r => match r with
                       | PostToken _ _ => Returned (JObj [("access_token", JStr "T")])
                       | _ => Returned (JObj [("id", JInt 7)])
                       end)
             initial_session "alice" "pw1"
             (JObj [("access_token", JStr "T")]) (JStr "T")
             (JObj [("id", JInt 7)]) (KeyError "username")
             eq_refl eq_refl eq_refl eq_refl eq_refl eq_refl eq_refl eq_refl
             eq_refl).
  reflexivity.
Defined.

(** A profile refresh whose answer is accepted never writes the session:
    the stored username is not replaced by the one just fetched.  With a
    [username] in the answer the run shows it and ends normally; without
    one it ends in the uncaught exception of line 101. *)
Theorem refresh_success_leaves_session
  (be : backend) (s : session) (user_info : pyval) :
  logged_in s = true ->
  be (GetUsersMe (access_token s)) = Returned user_info ->
  truthy user_info = true ->
  step be ClickRefreshProfile s = s /\
  requests be ClickRefreshProfile s = [GetUsersMe (access_token s)] /\
  (forall name,
     subscript user_info "username" = inr name ->
     In (st_write [Lit "Username: "; Fmt name]) (shown be ClickRefreshProfile s) /\
     stopped (run_script be ClickRefreshProfile s) = None) /\
  (forall e,
     subscript user_info "username" = inl e ->
     stopped (run_script be ClickRefreshProfile s) = Some (Uncaught e)).
Proof.
  destruct s as [li un tok key]; cbn [logged_in access_token].
  intros -> E Ht.
  script_unfold; cbn; rewrite E; cbn; rewrite Ht; cbn.
  destruct (subscript user_info "username") as [e | name] eqn:Hs; cbn;
    repeat (script_case; cbn).
  all: split; [reflexivity | split; [reflexivity | split]].
  all: intros x Hx; inversion Hx; subst.
  all: try reflexivity.
  all: split; [cbn; tauto | reflexivity].
Qed.

Lemma refresh_success_leaves_session_witness :
  logged_in alice_key_session = true /\
  step (fun _ => Returned (JObj [("username", JStr "bob")]))
    ClickRefreshProfile alice_key_session
  = alice_key_session.
Proof.
  split; [reflexivity | ].
  apply (refresh_success_leaves_session
           (fun _ => Returned (JObj [("username", JStr "bob")]))
           alice_key_session (JObj [("username", JStr "bob")]));
    reflexivity.
Defined.

(** A key generation whose answer is accepted but has no [key_value] ends
    in the uncaught exception of line 161 with the session, the old key
    included, as it was. *)
Theorem generate_without_key_raises
  (be : backend) (s : session) (api_key_data : pyval) (e : pyexn) :
  logged_in s = true ->
  be (PostGenerateApiKey (access_token s)) = Returned api_key_data ->
  truthy api_key_data = true ->
  subscript api_key_data "key_value" = inl e ->
  step be ClickGenerateApiKey s = s /\
  stopped (run_script be ClickGenerateApiKey s) = Some (Uncaught e) /\
  requests be ClickGenerateApiKey s = [PostGenerateApiKey (access_token s)].
Proof.
  destruct s as [li un tok key]; cbn [logged_in access_token].
  intros -> E Ht Hs.
  script_unfold; cbn. destruct (truthy key); cbn;
    rewrite E; cbn; rewrite Ht; cbn; rewrite Hs; cbn;
    repeat split; reflexivity.
Qed.

Lemma generate_without_key_raises_witness :
  logged_in alice_key_session = true /\
  step (fun _ => Returned (JObj [("api_key", JStr "K2")]))
    ClickGenerateApiKey alice_key_session
  = alice_key_session.
Proof.
  split; [reflexivity | ].
  apply (generate_without_key_raises
           (fun _ => Returned (JObj [("api_key", JStr "K2")]))
           alice_key_session (JObj [("api_key", JStr "K2")])
           (KeyError "key_value"));
    reflexivity.
Defined.

(** The widgets of the page that is not rendered do nothing: while logged
    out, no button of the logged-in page has any effect and nothing is
    shown; while logged in, a form submission issues no request and leaves
    the session as it was. *)
Theorem other_page_widgets_are_inert (be : backend) (s : session) :
  (logged_in s = false ->
   forall ev,
     In ev [NoEvent; ClickRefreshProfile; ClickCopyApiKey; ClickGenerateApiKey;
            ClickTestApiKey; ClickLogout] ->
     run_script be ev s = Ret tt (mkWorld s [] [])) /\
  (logged_in s = true ->
   forall c u p,
     step be (Submit c u p) s = s /\
     requests be (Submit c u p) s = [] /\
     stopped (run_script be (Submit c u p) s) = None).
Proof.
  destruct s as [li un tok key]; cbn [logged_in]. split; intros ->.
  - intros ev Hin. cbn in Hin.
    repeat match goal with
      | H : _ \/ _ |- _ => destruct H as [H | H]
      | H : False |- _ => destruct H
      end; subst ev; reflexivity.
  - intros c u p. script_run; repeat split; reflexivity.
Qed.

(** Without a stored key the logged-in page offers no access test: a click
    on that button sends nothing, the page shows the warning that no key
    was generated, and the session is as it was. *)
Theorem test_access_needs_key (be : backend) (s : session) :
  logged_in s = true ->
  truthy (generated_api_key s) = false ->
  run_script be ClickTestApiKey s
  = Ret tt
      (mkWorld s
         [st_success [Lit "Welcome, "; Fmt (username s); Lit "!"];
          st_warning
            [Lit "No API Key generated yet for this session. Click 'Generate' below."]]
         []).
Proof.
  destruct s as [li un tok key];
    cbn [logged_in username generated_api_key].
  intros -> Hk. script_unfold; cbn; rewrite Hk; cbn; rewrite Hk; reflexivity.
Qed.

Lemma test_access_needs_key_witness :
  logged_in alice_session = true /\
  truthy (generated_api_key alice_session) = false /\
  requests be_ok ClickTestApiKey alice_session = [].
Proof.
  repeat (split; [reflexivity | ]).
  unfold requests.
  rewrite (test_access_needs_key be_ok alice_session eq_refl eq_refl).
  reflexivity.
Defined.

(** The copy button of a stored key hands that key to the clipboard script
    and confirms it; the run issues no request, leaves the session as it
    was and ends normally. *)
Theorem copy_key_is_local (be : backend) (s : session) :
  logged_in s = true ->
  truthy (generated_api_key s) = true ->
  run_script be ClickCopyApiKey s
  = Ret tt
      (mkWorld s
         [st_success [Lit "Welcome, "; Fmt (username s); Lit "!"];
          st_info [Lit "Your API Key (keep it secret and do not share!):"];
          st_code (generated_api_key s);
          st_html_copy (generated_api_key s);
          st_success [Lit "API Key copied to clipboard!"];
          st_write
            [Lit "Click the button below to access data using your generated API Key."]]
         []).
Proof.
  destruct s as [li un tok key];
    cbn [logged_in username generated_api_key].
  intros -> Hk. script_unfold; cbn; rewrite Hk; cbn; rewrite Hk; reflexivity.
Qed.

Lemma copy_key_is_local_witness :
  logged_in alice_key_session = true /\
  truthy (generated_api_key alice_key_session) = true /\
  step be_401 ClickCopyApiKey alice_key_session = alice_key_session.
Proof.
  repeat (split; [reflexivity | ]).
  unfold step.
  rewrite (copy_key_is_local be_401 alice_key_session eq_refl eq_refl).
  reflexivity.
Defined.

(** Every request of a run has its origin in the page that is rendered:
    the form inputs go to /register or /token only; /users/me and the key
    generation get the stored [access_token] (or, during a login, the token
    just received); the protected endpoint gets the stored API key.  A
    token is never sent as API key nor a key as token. *)
Theorem requests_have_origin
  (be : backend) (ev : event) (s : session) (r : request) :
  In r (requests be ev s) -> request_origin be ev s r.
Proof.
  destruct s as [li un tok key]; destruct li;
    destruct ev as [ | | | | | | [ | ] u p];
    script_run; intros Hin; cbn in Hin;
    repeat match goal with
      | H : _ \/ _ |- _ => destruct H as [H | H]
      | H : False |- _ => destruct H
      end; subst r; cbn; auto;
    right; (split; [reflexivity | ]); eauto 6.
Qed.

Lemma requests_have_origin_witness :
  In (GetUsersMe (JStr "T"))
     (requests be_ok (Submit Login "alice" "pw1") initial_session) /\
  request_origin be_ok (Submit Login "alice" "pw1") initial_session
    (GetUsersMe (JStr "T")).
Proof.
  assert (H : In (GetUsersMe (JStr "T"))
                (requests be_ok (Submit Login "alice" "pw1") initial_session)).
  { cbn. right. left. reflexivity. }
  split; [exact H | ].
  apply (requests_have_origin be_ok (Submit Login "alice" "pw1")
           initial_session (GetUsersMe (JStr "T")) H).
Defined.

(** A run issues at most two requests, and two only for a login; an idle
    run, a copy and a logout issue none. *)
Theorem requests_are_bounded (be : backend) (ev : event) (s : session) :
  (length (requests be ev s) <= 2)%nat /\
  (length (requests be ev s) = 2%nat -> exists u p, ev = Submit Login u p) /\
  (In ev [NoEvent; ClickCopyApiKey; ClickLogout] -> requests be ev s = []).
Proof.
  destruct s as [li un tok key]; destruct li;
    destruct ev as [ | | | | | | [ | ] u p].
  all: script_run.
  all: split; [repeat constructor | split].
  all: try (intros H; discriminate H).
  all: try (intros _; eauto; fail).
  all: try reflexivity.
  all: intros Hin; cbn in Hin.
  all: repeat match goal with
         | H : _ \/ _ |- _ => destruct H as [H | H]
         | H : False |- _ => destruct H
         end.
  all: discriminate.
Qed.

Lemma step_keeps_logged_out_clean (be : backend) (ev : event) (s : session) :
  (logged_in s = false -> username s = JNull /\ access_token s = JNull) ->
  logged_in (step be ev s) = false ->
  username (step be ev s) = JNull /\ access_token (step be ev s) = JNull.
Proof.
  destruct s as [li un tok key]; cbn [logged_in username access_token].
  destruct li; intros Hinv.
  - destruct ev; script_run; intros H; try discriminate H; auto.
  - destruct (Hinv eq_refl) as [-> ->].
    destruct ev as [ | | | | | | [ | ] u p]; script_run; intros H;
      try discriminate H; auto.
Qed.

(** Whatever the backend answers, a logged-out session that the script can
    reach holds neither a username nor an access token: both are [None]
    after a logout, after an expired refresh and after a failed login. *)
Theorem logged_out_sessions_hold_no_token (s : session) :
  reachable s ->
  logged_in s = false ->
  username s = JNull /\ access_token s = JNull.
Proof.
  induction 1 as [ | be ev s _ _ IH].
  - intros _. split; reflexivity.
  - apply step_keeps_logged_out_clean. exact IH.
Qed.

Lemma logged_out_sessions_hold_no_token_witness :
  reachable expired_session /\
  logged_in expired_session = false /\
  username expired_session = JNull /\ access_token expired_session = JNull.
Proof.
  assert (H : reachable expired_session).
  { unfold expired_session.
    apply (reach_step (fun _ => True) be_401 ClickRefreshProfile _ I).
    apply (reach_step (fun _ => True) be_ok ClickGenerateApiKey _ I).
    apply (reach_step (fun _ => True) be_ok (Submit Login "alice" "pw1") _ I).
    apply reach_init. }
  split; [exact H | ]. split; [reflexivity | ].
  apply (logged_out_sessions_hold_no_token expired_session H eq_refl).
Defined.

(** A run that ends normally, without [st.rerun()] and without an uncaught
    exception, has not changed the session: every handler that writes a
    session variable and keeps the write reruns the script.  (A logged-out
    session is taken without a token, as every reachable one is.) *)
Theorem completed_run_leaves_session (be : backend) (ev : event) (s : session) :
  (logged_in s = false -> access_token s = JNull) ->
  stopped (run_script be ev s) = None ->
  step be ev s = s.
Proof.
  destruct s as [li un tok key]; cbn [logged_in access_token].
  destruct li; intros Hinv.
  - destruct ev; script_run; intros H; try discriminate H; reflexivity.
  - rewrite (Hinv eq_refl).
    destruct ev as [ | | | | | | [ | ] u p]; script_run; intros H;
      try discriminate H; reflexivity.
Qed.

Lemma completed_run_leaves_session_witness :
  stopped (run_script be_unverified (Submit Login "alice" "pw1") initial_session)
  = None /\
  step be_unverified (Submit Login "alice" "pw1") initial_session
  = initial_session.
Proof.
  split; [reflexivity | ].
  apply (completed_run_leaves_session be_unverified
           (Submit Login "alice" "pw1") initial_session);
    reflexivity.
Defined.

(** Against a backend whose accepted payloads carry the field their handler
    reads, no run ends in an uncaught exception. *)
Theorem no_uncaught_exception_with_fields
  (be : backend) (ev : event) (s : session) (e : pyexn) :
  sends_fields be ->
  stopped (run_script be ev s) <> Some (Uncaught e).
Proof.
  intros Hbe. destruct s as [li un tok key]; destruct li;
    destruct ev as [ | | | | | | [ | ] u p];
    script_run; try discriminate;
    repeat match goal with
      | E : be ?r = Returned _ |- _ =>
          let H := fresh "H" in
          pose proof (Hbe r) as H; unfold fields_ok in H;
          rewrite E in H; cbn in H; clear E
      end;
    repeat match goal with
      | H : context [truthy ?v], E : truthy ?v = _ |- _ => rewrite E in H
      | H : context [subscript ?v ?k], E : subscript ?v ?k = _ |- _ =>
          rewrite E in H
      end;
    discriminate.
Qed.

Lemma be_ok_sends_fields : sends_fields be_ok.
Proof. intros [u p | u p | tok | tok | key]; reflexivity. Qed.

Lemma no_uncaught_exception_with_fields_witness :
  sends_fields be_ok /\
  stopped (run_script be_ok (Submit Login "alice" "pw1") initial_session)
  <> Some (Uncaught (KeyError "username")).
Proof.
  split; [exact be_ok_sends_fields | ].
  apply (no_uncaught_exception_with_fields be_ok (Submit Login "alice" "pw1")
           initial_session (KeyError "username") be_ok_sends_fields).
Defined.

(** Each change of the session has one kind of cause.  Only a submitted
    login logs a session in; only an expired refresh or the logout button
    logs it out; only the key generation or the logout writes the API key;
    register, copy, the access test and an idle run write nothing. *)
Theorem session_changes_have_a_cause (be : backend) (ev : event) (s : session) :
  (logged_in s = false -> logged_in (step be ev s) = true ->
   exists u p, ev = Submit Login u p) /\
  (logged_in s = true -> logged_in (step be ev s) = false ->
   ev = ClickRefreshProfile \/ ev = ClickLogout) /\
  (generated_api_key (step be ev s) <> generated_api_key s ->
   ev = ClickGenerateApiKey \/ ev = ClickLogout) /\
  (step be ev s <> s ->
   ev = ClickRefreshProfile \/ ev = ClickGenerateApiKey \/ ev = ClickLogout \/
   exists u p, ev = Submit Login u p).
Proof.
  destruct s as [li un tok key]; destruct li;
    destruct ev as [ | | | | | | [ | ] u p];
    script_run;
    (split; [ | split; [ | split]]); intros; try discriminate;
    try (exfalso; congruence);
    eauto 8.
Qed.

(** A key outlives the session that made it and shows up in the next one:
    after an expired refresh and a new login, of whoever logs in, the
    session still holds the old key, and the page displays it. *)
Theorem stale_key_is_shown_after_relogin
  (be1 be2 be3 : backend) (s : session) (u p : string)
  (old_info old_error token_data tok user_info name : pyval) :
  logged_in s = true ->
  truthy (generated_api_key s) = true ->
  answer (get_current_user_api (access_token s)) be1
  = Some (old_info, old_error) ->
  truthy old_info = false ->
  str_nonempty u = true ->
  str_nonempty p = true ->
  be2 (PostToken u p) = Returned token_data ->
  truthy token_data = true ->
  subscript token_data "access_token" = inr tok ->
  be2 (GetUsersMe tok) = Returned user_info ->
  truthy user_info = true ->
  subscript user_info "username" = inr name ->
  step be2 (Submit Login u p) (step be1 ClickRefreshProfile s)
  = mkSession true name tok (generated_api_key s) /\
  In (st_code (generated_api_key s))
     (shown be3 NoEvent
        (step be2 (Submit Login u p) (step be1 ClickRefreshProfile s))).
Proof.
  destruct s as [li un tok0 key];
    cbn [logged_in access_token generated_api_key].
  intros -> Hk Hans Hfail Hu Hp E1 T1 S1 E2 T2 S2.
  assert (Hexp : step be1 ClickRefreshProfile (mkSession true un tok0 key)
                 = mkSession false JNull JNull key).
  { answer_inv Hans; script_unfold; cbn; rewrite E; cbn;
      rewrite ?Hfail; reflexivity. }
  rewrite Hexp.
  assert (Hlog : step be2 (Submit Login u p) (mkSession false JNull JNull key)
                 = mkSession true name tok key).
  { script_unfold; cbn; rewrite Hu, Hp; cbn; rewrite E1; cbn; rewrite T1; cbn;
      rewrite S1; cbn; rewrite E2; cbn; rewrite T2; cbn; rewrite S2;
      reflexivity. }
  rewrite Hlog. split; [reflexivity | ].
  script_unfold; cbn; rewrite Hk; cbn; rewrite Hk; cbn. tauto.
Qed.

Lemma stale_key_is_shown_after_relogin_witness :
  step (fun r => match r with
                 | GetUsersMe _ => Returned (JObj [("username", JStr "bob")])
                 | o => be_ok o
                 end)
    (Submit Login "bob" "pw2") (step be_401 ClickRefreshProfile alice_key_session)
  = mkSession true (JStr "bob") (JStr "T") (JStr "K1").
Proof.
  exact (proj1 (stale_key_is_shown_after_relogin be_401
           (fun r => match r with
                     | GetUsersMe _ => Returned (JObj [("username", JStr "bob")])
                     | o => be_ok o
                     end)
           be_ok alice_key_session "bob" "pw2" JNull
           (JStr "Error connecting to backend or invalid response: e")
           (JObj [("access_token", JStr "T"); ("token_type", JStr "bearer")])
           (JStr "T") (JObj [("username", JStr "bob")]) (JStr "bob")
           eq_refl eq_refl eq_refl eq_refl eq_refl eq_refl eq_refl eq_refl
           eq_refl eq_refl eq_refl eq_refl)).
Defined.



(** The run that [st.rerun()] starts, with no widget fired, ends normally:
    it requests no further rerun, raises nothing, sends nothing and leaves
    the session as it found it, so one interaction costs at most two runs. *)
Theorem rerun_settles (be : backend) (s : session) :
  stopped (run_script be NoEvent s) = None /\
  step be NoEvent s = s /\
  requests be NoEvent s = [].
Proof.
  destruct s as [li un tok key]; destruct li; script_run;
    repeat split; reflexivity.
Qed.
